(** * CrawlnChat: the MCP tool server of [src/api/mcp_app.py]

    A shallow embedding of the module [src/api/mcp_app.py]: the module
    global [agent_router], the tool [chat_with_content] and the start
    routine [run_mcp_server].  Python dictionaries with string keys are
    finite maps ([gmap string PyVal]); the module global, the console log
    level and whatever the module does to the outside world (calls of the
    collaborator, log records, the transport loop) live in an explicit
    state, threaded by a small state-and-exception monad. *)

From Stdlib Require Import ZArith List.
From stdpp Require Import base gmap strings list fin_maps.

Local Open Scope string_scope.
Local Open Scope list_scope.
Set Warnings "-register-all".

(** ** Python values *)

(** The values that travel through the tool: what the collaborator puts in
    its result dictionary and what the tool hands back. *)
Inductive PyVal : Type :=
  | PyNone
  | PyBool (b : bool)
  | PyInt (n : Z)
  | PyStr (s : string)
  | PyList (xs : list PyVal)
  | PyDict (d : gmap string PyVal).

(** [Dict[str, Any]] *)
Abbreviation Dict := (gmap string PyVal).

(** ** Exceptions *)

(** A raised object: its class name, whether it is an instance of
    [Exception] (and not only of [BaseException], like [KeyboardInterrupt],
    [SystemExit] or [asyncio.CancelledError]) and what [str(e)] gives: a
    text or, when the [__str__] of its class itself raises, the exception
    that comes out of it. *)
Inductive PyExc : Type := PyExc_new {
  exc_class : string;
  exc_is_Exception : bool;
  exc_str : string + PyExc
}.

(** An exception whose [str] is the text given, as those of the builtin
    classes are. *)
Definition mkExc (class : string) (is_exception : bool) (text : string) : PyExc :=
  PyExc_new class is_exception (inl text).

(** [KeyError(key)], what [d[key]] raises on a missing key; [str] of a
    [KeyError] is the [repr] of its key (stated for keys without quotes or
    escapes, such as ["response"]). *)
Definition KeyError (key : string) : PyExc :=
  mkExc "KeyError" true ("'" +:+ key +:+ "'").

(** [class RuntimeError(Exception)]: the class this module declares, which
    shadows the builtin of that name. *)
Definition RuntimeError (msg : string) : PyExc :=
  mkExc "RuntimeError" true msg.

Inductive Outcome (A : Type) : Type :=
  | Returned (a : A)
  | Raised (e : PyExc).
Arguments Returned {A} a.
Arguments Raised {A} e.

(** What [process_query] returns: a dictionary, which may be an instance
    of a subclass of [dict] that defines [__missing__]
    ([collections.defaultdict], [collections.Counter]): [d[key]] calls it
    for a key that is not there, [d.get] does not. *)
Record PyMapping : Type := mkMapping {
  entries : Dict;
  missing : option (string -> Outcome PyVal)
}.

(** A plain [dict]. *)
Definition plain (d : Dict) : PyMapping := mkMapping d None.

(** ** The outside world *)

(** What the module does that an observer can see, oldest first. *)
Inductive Event : Type :=
  | EvConstruct (embedding_model : string)        (* AgentRouter(embedding_model=...) *)
  | EvProcessQuery (router : nat) (query : string) (* router.process_query(query=...) *)
  | EvLog (level : string) (msg : string)          (* logger.<level>(msg) *)
  | EvConfigureLogging (level : string)            (* configure_logging(level) *)
  | EvRun (transport : string) (console : string)  (* mcp.run(transport=...), and the console level it starts under *)
  | EvServing                                      (* the transport loop accepts calls *)
  | EvReply (query : string) (result : Dict).      (* a tool result sent back *)

(** An [AgentRouter] instance (the class lives in [src/core/router.py]):
    its identity, the value of [bool(obj)], and what [await
    obj.process_query(query=q)] does, which may depend on everything that
    happened before: it raises, or it returns its result, a dictionary
    that may or may not have the keys the tool reads. *)
Record Router : Type := mkRouter {
  rid : nat;
  truthy : bool;
  process_query : list Event -> string -> Outcome PyMapping
}.

Record World : Type := mkWorld {
  agent_router : option Router;  (* the module global *)
  console_level : string;        (* level of the console log stream *)
  trace : list Event
}.

(** ** State and exceptions *)

Definition M (A : Type) : Type := World -> Outcome A * World.

Definition ret {A} (a : A) : M A := fun w => (Returned a, w).

Definition bind {A B} (m : M A) (k : A -> M B) : M B :=
  fun w => match m w with
           | (Returned a, w') => k a w'
           | (Raised e, w') => (Raised e, w')
           end.

Definition raise {A} (e : PyExc) : M A := fun w => (Raised e, w).

#[export] Instance M_ret : MRet M := @ret.
#[export] Instance M_bind : MBind M := fun A B k m => bind m k.

(** [try: body  except Exception as e: handler e] *)
Definition try_except_Exception {A} (body : M A) (handler : PyExc -> M A) : M A :=
  fun w => match body w with
           | (Returned a, w') => (Returned a, w')
           | (Raised e, w') =>
               if exc_is_Exception e then handler e w' else (Raised e, w')
           end.

(** The world after some more events. *)
Definition record (w : World) (evs : list Event) : World :=
  mkWorld (agent_router w) (console_level w) (trace w ++ evs).

Definition emit (ev : Event) : M unit :=
  fun w => (Returned tt, record w [ev]).

Definition read_agent_router : M (option Router) :=
  fun w => (Returned (agent_router w), w).

Definition write_agent_router (r : option Router) : M unit :=
  fun w => (Returned tt, mkWorld r (console_level w) (trace w)).

(** [logger.error(msg)] *)
Definition logger_error (msg : string) : M unit := emit (EvLog "ERROR" msg).

(** [str(e)], also what [{e}] in an f-string evaluates *)
Definition str (e : PyExc) : M string :=
  match exc_str e with
  | inl text => mret text
  | inr e' => raise e'
  end.

(** [bool(x)] for [x : Optional[AgentRouter]] *)
Definition truth (x : option Router) : bool :=
  match x with
  | None => false
  | Some r => truthy r
  end.

(** [obj.process_query], looked up on [None] *)
Definition AttributeError_process_query : PyExc :=
  mkExc "AttributeError" true "'NoneType' object has no attribute 'process_query'".

(** [await agent_router.process_query(query=query)] *)
Definition call_process_query (router : option Router) (query : string) : M PyMapping :=
  match router with
  | Some r =>
      fun w =>
        (process_query r (trace w) query,
         record w [EvProcessQuery (rid r) query])
  | None => raise AttributeError_process_query
  end.

(** [d[key]]: the entry, or what [__missing__] gives where the class has
    one, or [KeyError] *)
Definition getitem (d : PyMapping) (key : string) : M PyVal :=
  match entries d !! key with
  | Some v => ret v
  | None =>
      match missing d with
      | Some on_missing => fun w => (on_missing key, w)
      | None => raise (KeyError key)
      end
  end.

(** [d.get(key, default)] *)
Definition dict_get (d : PyMapping) (key : string) (default : PyVal) : PyVal :=
  match entries d !! key with
  | Some v => v
  | None => default
  end.

(** ** The tool *)

Definition chat_with_content (query : string) : M Dict :=
  guard ← read_agent_router ;
  if negb (truth guard) then
    ret {[ "error" := PyStr "Service not initialized" ]}
  else
    try_except_Exception
      (router ← read_agent_router ;
       result ← call_process_query router query ;
       response ← getitem result "response" ;
       ret (<[ "sources" := dict_get result "sources" (PyList []) ]>
              {[ "response" := response ]}))
      (fun e =>
         logged ← str e ;
         logger_error ("Error in chat: " +:+ logged) ;;
         detail ← str e ;
         ret {[ "error" := PyStr ("Error processing query: " +:+ detail) ]}).

(** ** The transport loop *)

(** [FastMCP.run], of the package [mcp], as the specification describes
    the transport loop.  One run of
    [mcp.run(transport=...)] either throws before it serves, or accepts
    calls: it reads the framed requests one after the other, dispatches
    each to the registered tool and sends the result back, until the
    transport closes (normal return) or the loop crashes.  The calls are
    taken one after the other here; calls in flight at the same time are
    not modelled.  A raise that leaves the tool ends the loop, and what
    the run then raises is for the runtime to say ([escalate]: the task
    group of the runtime wraps the raise in an exception group). *)
Inductive Session : Type :=
  | StartFailure (e : PyExc)
  | Serve (requests : list string) (ending : option PyExc)
          (escalate : PyExc -> PyExc).

Fixpoint dispatch (requests : list string) : M unit :=
  match requests with
  | [] => mret tt
  | query :: rest =>
      result ← chat_with_content query;
      emit (EvReply query result);;
      dispatch rest
  end.

Definition get_world : M World := fun w => (Returned w, w).

Definition set_console_level (level : string) : M unit :=
  fun w => (Returned tt, mkWorld (agent_router w) level (trace w)).

(** [m], with a raise that leaves it replaced by what the runtime makes
    of it. *)
Definition escalated (escalate : PyExc -> PyExc) (m : M unit) : M unit :=
  fun w => match m w with
           | (Returned a, w') => (Returned a, w')
           | (Raised e, w') => (Raised (escalate e), w')
           end.

Definition mcp_run (session : list Event -> Session) (transport : string) : M unit :=
  w ← get_world;
  emit (EvRun transport (console_level w));;
  match session (trace w) with
  | StartFailure e => raise e
  | Serve requests ending escalate =>
      emit EvServing;;
      escalated escalate (dispatch requests);;
      match ending with
      | None => mret tt
      | Some e => raise e
      end
  end.

(** Modelled from the spec: [configure_logging] of [src/core/logger.py],
    which is not among the sources.  It sets the level of the console log
    stream to the level named, unless it throws; what level a call that
    throws leaves behind is not said anywhere, and comes with the fault. *)
Definition configure_logging (fault : list Event -> string -> option (PyExc * string))
    (level : string) : M unit :=
  w ← get_world;
  emit (EvConfigureLogging level);;
  match fault (trace w) level with
  | Some (e, level_after) => set_console_level level_after;; raise e
  | None => set_console_level level
  end.

(** The numeric values of the level names, from Python's [logging]. *)
Definition level_no (name : string) : option nat :=
  if String.eqb name "CRITICAL" then Some 50
  else if String.eqb name "ERROR" then Some 40
  else if String.eqb name "WARNING" then Some 30
  else if String.eqb name "INFO" then Some 20
  else if String.eqb name "DEBUG" then Some 10
  else if String.eqb name "NOTSET" then Some 0
  else None.

(** ** The start routine *)

(** What the module imports and this development does not have: the
    constant of [src/core/settings.py], what calling the class of
    [src/core/router.py] gives (it may throw; what it yields, an instance
    or, in the worst case, [None], may depend on what happened before), the
    faults of [configure_logging] and what the stdio transport has in
    store. *)
Record Env : Type := mkEnv {
  DEFAULT_EMBEDDING_MODEL : string;
  AgentRouter : list Event -> string -> Outcome (option Router);
  logging_fault : list Event -> string -> option (PyExc * string);
  session : list Event -> Session
}.

(** [AgentRouter(embedding_model=...)] *)
Definition AgentRouter_new (env : Env) (embedding_model : string) : M (option Router) :=
  fun w =>
    (AgentRouter env (trace w) embedding_model,
     record w [EvConstruct embedding_model]).

(** The conditional expression whose value is assigned to the global:
    [init_agent_router if init_agent_router else AgentRouter(...)]. *)
Definition initialize (env : Env) (init_agent_router : option Router) : M (option Router) :=
  if truth init_agent_router then mret init_agent_router
  else AgentRouter_new env (DEFAULT_EMBEDDING_MODEL env).

Definition run_mcp_server (env : Env) (init_agent_router : option Router) : M unit :=
  chosen ← initialize env init_agent_router;
  write_agent_router chosen;;
  guard ← read_agent_router;
  if negb (truth guard) then
    raise (RuntimeError "Shared services must be initialized before starting the server")
  else
    try_except_Exception
      (configure_logging (logging_fault env) "CRITICAL";;
       mcp_run (session env) "stdio")
      (fun e =>
         logged ← str e;
         logger_error ("MCP server failed to start or crashed: " +:+ logged);;
         raise e).

(** The state of the module once it is imported: the global is [None] and
    one info record has been logged ([port] is the text of [MCP_PORT]). *)
Definition module_loaded (console port : string) : World :=
  mkWorld None console [EvLog "INFO" ("Initializing MCP server with port " +:+ port)].

(** ** Stubs *)

Module Stubs.

Definition full_answer : Dict :=
  <[ "sources" := PyList [PyStr "s1"] ]> {[ "response" := PyStr "R" ]}.

Definition bare_answer : Dict := {[ "response" := PyStr "R" ]}.

(** answers every query, with sources *)
Definition working : Router :=
  mkRouter 1 true (fun _ _ => Returned (plain full_answer)).

(** answers every query, without a sources field *)
Definition terse : Router :=
  mkRouter 2 true (fun _ _ => Returned (plain bare_answer)).

(** raises [ValueError("boom")] on "bad" and answers anything else *)
Definition moody : Router :=
  mkRouter 3 true
    (fun _ q => if String.eqb q "bad" then Raised (mkExc "ValueError" true "boom")
                else Returned (plain full_answer)).

(** an instance whose [__bool__] gives [False] *)
Definition hollow : Router :=
  mkRouter 4 false (fun _ _ => Returned (plain full_answer)).

(** its result has no "response" key *)
Definition mute : Router :=
  mkRouter 5 true (fun _ _ => Returned (plain {[ "sources" := PyList [] ]})).

(** its result is a [defaultdict(str)] with no "response" key: the
    subscript gives the empty text *)
Definition defaulting : Router :=
  mkRouter 7 true
    (fun _ _ => Returned (mkMapping {[ "sources" := PyList [] ]}
                                    (Some (fun _ => Returned (PyStr EmptyString))))).





Definition w0 : World := module_loaded "INFO" "8000".

Definition serving (r : Router) : World :=
  mkWorld (Some r) "CRITICAL" (trace w0).

(** a start with default model "m1": the class builds [built], logging
    is set without fault, the transport serves [requests] and closes *)
Definition env (built : Router) (requests : list string) : Env :=
  mkEnv "m1" (fun _ _ => Returned (Some built)) (fun _ _ => None)
        (fun _ => Serve requests None (fun e => e)).

(** the class throws [ValueError("no such model")] *)
Definition broken_class : Env :=
  mkEnv "m1" (fun _ _ => Raised (mkExc "ValueError" true "no such model"))
        (fun _ _ => None) (fun _ => Serve [] None (fun e => e)).

(** the transport throws [OSError("stdin closed")] before it serves *)
Definition dead_transport : Env :=
  mkEnv "m1" (fun _ _ => Returned (Some working)) (fun _ _ => None)
        (fun _ => StartFailure (mkExc "OSError" true "stdin closed")).

End Stubs.

(** * Properties *)

(** ** Results of the tool *)

(** The two error payloads and the success payload. *)
Definition not_initialized : Dict := {[ "error" := PyStr "Service not initialized" ]}.

Definition processing_error (detail : string) : Dict :=
  {[ "error" := PyStr ("Error processing query: " +:+ detail) ]}.

Definition answer (response sources : PyVal) : Dict :=
  <[ "sources" := sources ]> {[ "response" := response ]}.

(** The two shapes of a tool result, by the keys present. *)
Definition success_shape (d : Dict) : Prop := dom d = {[ "response"; "sources" ]}.
Definition error_shape (d : Dict) : Prop := dom d = {[ "error" ]}.

(** The events of a call of the tool: they concern the router in the
    global only. *)
Definition tool_event (h : option Router) (ev : Event) : bool :=
  match ev with
  | EvProcessQuery i _ =>
      match h with
      | Some r => Nat.eqb i (rid r)
      | None => false
      end
  | EvLog _ _ | EvReply _ _ => true
  | _ => false
  end.

(** The events a later world has on top of an earlier one. *)
Definition new_events (w w' : World) : list Event :=
  drop (length (trace w)) (trace w').

(** The embedding models of the constructions, the routers queried and
    the transport runs among some events. *)
Definition constructions (evs : list Event) : list string :=
  flat_map (fun ev => match ev with EvConstruct m => [m] | _ => [] end) evs.

Definition queried (evs : list Event) : list nat :=
  flat_map (fun ev => match ev with EvProcessQuery i _ => [i] | _ => [] end) evs.

(** What the handler of the start routine logs of a raise before it
    raises it again, and what leaves the routine in the end: the raise
    itself, or what its [str] raised while the record was being made. *)
Definition crash_log (e : PyExc) : list Event :=
  if exc_is_Exception e then
    match exc_str e with
    | inl text => [EvLog "ERROR" ("MCP server failed to start or crashed: " +:+ text)]
    | inr _ => []
    end
  else [].

Definition reraised (e : PyExc) : PyExc :=
  if exc_is_Exception e then
    match exc_str e with
    | inl _ => e
    | inr e' => e'
    end
  else e.

(** What the start routine does, in order, once the global is written:
    it lowers the console level, enters the transport, which then serves. *)
Definition startup_steps : list Event :=
  [EvConfigureLogging "CRITICAL"; EvRun "stdio" "CRITICAL"; EvServing].

(** Every transport run among some events is a stdio run that saw the
    console at CRITICAL, after a [configure_logging] whose latest level
    was CRITICAL ([configured] tells whether that is so at the start). *)
Fixpoint suppressed_at_runs (configured : bool) (evs : list Event) : bool :=
  match evs with
  | [] => true
  | EvConfigureLogging level :: rest =>
      suppressed_at_runs (String.eqb level "CRITICAL") rest
  | EvRun transport console :: rest =>
      configured && String.eqb transport "stdio" && String.eqb console "CRITICAL"
      && suppressed_at_runs configured rest
  | _ :: rest => suppressed_at_runs configured rest
  end.

(** The calls of [process_query] (router and query) and the log records
    (level and message) among some events. *)
Definition invocations (evs : list Event) : list (nat * string) :=
  flat_map (fun ev => match ev with EvProcessQuery i q => [(i, q)] | _ => [] end) evs.


(** What the two reads of line 59 give on the result of the
    collaborator: the success payload, or the raise of the subscript. *)
Definition looked_up (result : PyMapping) : Outcome Dict :=
  match entries result !! "response" with
  | Some response =>
      Returned (answer response (dict_get result "sources" (PyList [])))
  | None =>
      match missing result with
      | Some on_missing =>
          match on_missing "response" with
          | Returned response =>
              Returned (answer response (dict_get result "sources" (PyList [])))
          | Raised e => Raised e
          end
      | None => Raised (KeyError "response")
      end
  end.

(** The value of the [try] block of the tool: the call of the
    collaborator, then the two reads. *)
Definition tool_body (r : Router) (history : list Event) (query : string) : Outcome Dict :=
  match process_query r history query with
  | Returned result => looked_up result
  | Raised e => Raised e
  end.

(** What the [except] clause of the tool makes of a raise: the outcome
    of the call and the record it logs. *)
Definition handled (e : PyExc) : Outcome Dict * list Event :=
  if exc_is_Exception e then
    match exc_str e with
    | inl text =>
        (Returned (processing_error text),
         [EvLog "ERROR" ("Error in chat: " +:+ text)])
    | inr e' => (Raised e', [])
    end
  else (Raised e, []).

(** What one call does, path by path. *)

Lemma chat_falsy (query : string) (w : World) :
  truth (agent_router w) = false ->
  chat_with_content query w = (Returned not_initialized, w).
Proof.
  intros Hf. unfold chat_with_content, mbind, M_bind, bind, read_agent_router.
  now rewrite Hf.
Qed.

Lemma chat_truthy (query : string) (w : World) (r : Router) :
  agent_router w = Some r -> truthy r = true ->
  chat_with_content query w =
    match tool_body r (trace w) query with
    | Returned d => (Returned d, record w [EvProcessQuery (rid r) query])
    | Raised e =>
        (fst (handled e), record w (EvProcessQuery (rid r) query :: snd (handled e)))
    end.
Proof.
  intros Hr Ht. destruct w as [h c t]. cbn in Hr. subst h.
  unfold chat_with_content, mbind, M_bind, bind, read_agent_router,
    try_except_Exception, call_process_query, getitem, logger_error, emit, record,
    str, tool_body, looked_up, handled, mret, M_ret, ret, raise.
  cbn. rewrite Ht. cbn.
  destruct (process_query r t query) as [result | e]; cbn.
  - destruct (entries result !! "response") as [response |]; cbn; [reflexivity |].
    destruct (missing result) as [on_missing |]; cbn.
    + destruct (on_missing "response") as [response | e]; cbn; [reflexivity |].
      destruct (exc_is_Exception e); cbn; [| reflexivity].
      destruct (exc_str e) as [text | e']; cbn; [| reflexivity].
      now rewrite <- app_assoc.
    + now rewrite <- app_assoc.
  - destruct (exc_is_Exception e); cbn; [| reflexivity].
    destruct (exc_str e) as [text | e']; cbn; [| reflexivity].
    now rewrite <- app_assoc.
Qed.

Lemma truth_Some (h : option Router) :
  truth h = true -> exists r, h = Some r /\ truthy r = true.
Proof. destruct h as [r |]; cbn; [eauto | discriminate]. Qed.

(** The shapes exclude each other. *)
Lemma answer_shape (response sources : PyVal) :
  success_shape (answer response sources) /\
  ~ error_shape (answer response sources) /\
  answer response sources !! "error" = None.
Proof.
  unfold success_shape, error_shape, answer. split; [| split].
  - rewrite dom_insert_L, dom_singleton_L. set_solver.
  - rewrite dom_insert_L, dom_singleton_L. intros Heq.
    assert (Hin : "sources" ∈ ({["error"]} : gset string)) by (rewrite <- Heq; set_solver).
    apply elem_of_singleton in Hin. discriminate.
  - reflexivity.
Qed.

Lemma error_payload_shape (msg : string) :
  let d : Dict := {[ "error" := PyStr msg ]} in
  error_shape d /\ ~ success_shape d /\ d !! "response" = None /\ d !! "sources" = None.
Proof.
  unfold success_shape, error_shape. split; [| split; [| split; reflexivity]].
  - now rewrite dom_singleton_L.
  - rewrite dom_singleton_L. intros Heq.
    assert (Hin : "sources" ∈ ({["error"]} : gset string)) by (rewrite Heq; set_solver).
    apply elem_of_singleton in Hin. discriminate.
Qed.

Lemma handled_tool (h : option Router) (e : PyExc) :
  forallb (tool_event h) (snd (handled e)) = true.
Proof.
  unfold handled. destruct (exc_is_Exception e); [| reflexivity].
  now destruct (exc_str e).
Qed.

Lemma chat_frame (query : string) (w : World) :
  exists evs,
    snd (chat_with_content query w) = record w evs /\
    forallb (tool_event (agent_router w)) evs = true.
Proof.
  destruct (truth (agent_router w)) eqn:Ht.
  - destruct (truth_Some _ Ht) as (r & Hr & Htr).
    rewrite (chat_truthy query w r Hr Htr), Hr.
    destruct (tool_body r (trace w) query) as [d | e];
      eexists; (split; [reflexivity |]); cbn; rewrite Nat.eqb_refl; [reflexivity |].
    apply handled_tool.
  - rewrite (chat_falsy query w Ht). exists []. split; [| reflexivity].
    destruct w; unfold record; cbn. now rewrite app_nil_r.
Qed.

Lemma record_record (w : World) (xs ys : list Event) :
  record (record w xs) ys = record w (xs ++ ys).
Proof. unfold record; cbn. now rewrite app_assoc. Qed.

Lemma dispatch_frame (requests : list string) (w : World) :
  exists evs,
    snd (dispatch requests w) = record w evs /\
    forallb (tool_event (agent_router w)) evs = true.
Proof.
  revert w. induction requests as [| query rest IH]; intros w.
  - exists []. split; [| reflexivity].
    destruct w; unfold record; cbn. now rewrite app_nil_r.
  - cbn [dispatch]. unfold mbind, M_bind, bind.
    destruct (chat_frame query w) as (evs & Hw & Hevs).
    destruct (chat_with_content query w) as [[result | e] w1]; cbn in Hw; subst w1.
    + unfold emit. rewrite record_record.
      destruct (IH (record w (evs ++ [EvReply query result]))) as (evs' & Hw' & Hevs').
      exists ((evs ++ [EvReply query result]) ++ evs'). split.
      * rewrite Hw'. apply record_record.
      * rewrite !forallb_app, Hevs. cbn. exact Hevs'.
    + exists evs. now split.
Qed.

(** ** The tool: fast fail, success, containment *)

(** Claim C1. For every query, when the module global [agent_router] is
    [None], [chat_with_content] returns exactly
    [{"error": "Service not initialized"}], and the world is left as it
    was: in particular nothing is added to the trace, so [process_query]
    is not invoked. *)
Theorem chat_null_handle_fast_fail (query : string) (w : World) :
  agent_router w = None ->
  chat_with_content query w =
    (Returned {[ "error" := PyStr "Service not initialized" ]}, w) /\
  trace (snd (chat_with_content query w)) = trace w.
Proof.
  intros Hnone.
  assert (Hf : truth (agent_router w) = false) by now rewrite Hnone.
  rewrite (chat_falsy query w Hf). split; reflexivity.
Qed.

Lemma chat_null_handle_fast_fail_witness :
  chat_with_content "hello" Stubs.w0 =
    (Returned {[ "error" := PyStr "Service not initialized" ]}, Stubs.w0) /\
  trace (snd (chat_with_content "hello" Stubs.w0)) = trace Stubs.w0.
Proof. apply (chat_null_handle_fast_fail "hello" Stubs.w0). reflexivity. Defined.

(** Claim C9. The guard of the tool is a truthiness test: for every value
    of the module global that is falsy ([None], or an instance whose
    [bool] is [False]), [chat_with_content] returns
    [{"error": "Service not initialized"}] and leaves the world as it was,
    so the collaborator is not invoked. *)
Theorem chat_falsy_handle_fast_fail (query : string) (w : World) :
  truth (agent_router w) = false ->
  chat_with_content query w =
    (Returned {[ "error" := PyStr "Service not initialized" ]}, w) /\
  trace (snd (chat_with_content query w)) = trace w.
Proof.
  intros Hf. rewrite (chat_falsy query w Hf). split; reflexivity.
Qed.

Lemma chat_falsy_handle_fast_fail_witness :
  let w := Stubs.serving Stubs.hollow in
  chat_with_content "hello" w =
    (Returned {[ "error" := PyStr "Service not initialized" ]}, w) /\
  trace (snd (chat_with_content "hello" w)) = trace w.
Proof.
  apply (chat_falsy_handle_fast_fail "hello" (Stubs.serving Stubs.hollow)).
  reflexivity.
Defined.

(** Claim C2. When the module global holds a router that passes the guard
    (so that [process_query] is invoked) and [process_query] returns the
    dictionary [result] with a "response" entry, the tool returns
    [{"response": result["response"], "sources": s}] where [s] is
    [result["sources"]] if that key is present and the empty list
    otherwise; the only effect is the one call of [process_query].  This
    holds of a plain dictionary and of an instance of any subclass. *)
Theorem chat_success_mapping (query : string) (w : World) (r : Router)
    (result : PyMapping) (response : PyVal) :
  agent_router w = Some r ->
  truthy r = true ->
  process_query r (trace w) query = Returned result ->
  entries result !! "response" = Some response ->
  chat_with_content query w =
    (Returned (<[ "sources" := match entries result !! "sources" with
                               | Some sources => sources
                               | None => PyList []
                               end ]> {[ "response" := response ]}),
     record w [EvProcessQuery (rid r) query]) /\
  (entries result !! "sources" = None ->
   fst (chat_with_content query w) =
     Returned (<[ "sources" := PyList [] ]> {[ "response" := response ]})).
Proof.
  intros Hr Ht Hq Hresp.
  rewrite (chat_truthy query w r Hr Ht). unfold tool_body, looked_up.
  rewrite Hq, Hresp. unfold answer, dict_get. split; [reflexivity |].
  intros Hnone. now rewrite Hnone.
Qed.

Lemma chat_success_mapping_witness :
  let w := Stubs.serving Stubs.terse in
  chat_with_content "any" w =
    (Returned (<[ "sources" := PyList [] ]> {[ "response" := PyStr "R" ]}),
     record w [EvProcessQuery 2 "any"]) /\
  (Stubs.bare_answer !! "sources" = None ->
   fst (chat_with_content "any" w) =
     Returned (<[ "sources" := PyList [] ]> {[ "response" := PyStr "R" ]})).
Proof.
  apply (chat_success_mapping "any" (Stubs.serving Stubs.terse) Stubs.terse
           (plain Stubs.bare_answer) (PyStr "R")); reflexivity.
Defined.

(** The pass-through of a result that has sources (P2 of the
    specification), by evaluation. *)
Example chat_pass_through :
  fst (chat_with_content "any" (Stubs.serving Stubs.working)) =
    Returned (<[ "sources" := PyList [PyStr "s1"] ]> {[ "response" := PyStr "R" ]}).
Proof. reflexivity. Qed.

(** Claim C10, as stated, at a result that is a [defaultdict(str)]: it
    has no "response" key, the subscript of line 59 is answered by
    [__missing__] with the empty text, nothing is raised, and the call
    returns a success payload. *)
Lemma chat_defaulting_result_succeeds :
  let w := Stubs.serving Stubs.defaulting in
  let result := mkMapping {[ "sources" := PyList [] ]}
                          (Some (fun _ => Returned (PyStr EmptyString))) in
  agent_router w = Some Stubs.defaulting /\
  truthy Stubs.defaulting = true /\
  process_query Stubs.defaulting (trace w) "hello" = Returned result /\
  entries result !! "response" = None /\
  chat_with_content "hello" w =
    (Returned (<[ "sources" := PyList [] ]> {[ "response" := PyStr EmptyString ]}),
     record w [EvProcessQuery 7 "hello"]) /\
  success_shape (<[ "sources" := PyList [] ]> {[ "response" := PyStr EmptyString ]}).
Proof.
  repeat split.
Qed.

(** Claim C10, amended. When [process_query] returns a plain dictionary
    (one whose class has no [__missing__]) without a "response" key, the
    tool does not raise and does not give a success payload: the
    [KeyError] of [result["response"]] is caught by the handler of the
    call, logged, and the result is
    [{"error": "Error processing query: 'response'"}]. *)
Theorem chat_missing_response_contained (query : string) (w : World) (r : Router)
    (result : PyMapping) :
  agent_router w = Some r ->
  truthy r = true ->
  process_query r (trace w) query = Returned result ->
  missing result = None ->
  entries result !! "response" = None ->
  chat_with_content query w =
    (Returned {[ "error" := PyStr "Error processing query: 'response'" ]},
     record w [EvProcessQuery (rid r) query;
               EvLog "ERROR" "Error in chat: 'response'"]) /\
  error_shape {[ "error" := PyStr "Error processing query: 'response'" ]} /\
  ~ success_shape {[ "error" := PyStr "Error processing query: 'response'" ]}.
Proof.
  intros Hr Ht Hq Hplain Hresp.
  rewrite (chat_truthy query w r Hr Ht). unfold tool_body, looked_up.
  rewrite Hq, Hresp, Hplain.
  split; [reflexivity |].
  destruct (error_payload_shape "Error processing query: 'response'") as (He & Hs & _).
  now split.
Qed.

Lemma chat_missing_response_contained_witness :
  let w := Stubs.serving Stubs.mute in
  chat_with_content "hello" w =
    (Returned {[ "error" := PyStr "Error processing query: 'response'" ]},
     record w [EvProcessQuery 5 "hello";
               EvLog "ERROR" "Error in chat: 'response'"]) /\
  error_shape {[ "error" := PyStr "Error processing query: 'response'" ]} /\
  ~ success_shape {[ "error" := PyStr "Error processing query: 'response'" ]}.
Proof.
  apply (chat_missing_response_contained "hello" (Stubs.serving Stubs.mute)
           Stubs.mute (plain {[ "sources" := PyList [] ]})); reflexivity.
Defined.




(** "bad" then "good" against the same stub (P4 of the specification), by
    evaluation. *)
Example chat_bad_then_good :
  let w' := snd (chat_with_content "bad" (Stubs.serving Stubs.moody)) in
  fst (chat_with_content "good" w') = Returned Stubs.full_answer.
Proof. reflexivity. Qed.

Lemma tool_body_answer (r : Router) (history : list Event) (query : string) (d : Dict) :
  tool_body r history query = Returned d ->
  exists response sources, d = answer response sources.
Proof.
  unfold tool_body, looked_up.
  destruct (process_query r history query) as [result | e]; [| discriminate].
  destruct (entries result !! "response") as [response |].
  - intros [= <-]. eauto.
  - destruct (missing result) as [on_missing |]; [| discriminate].
    destruct (on_missing "response") as [response | e]; [| discriminate].
    intros [= <-]. eauto.
Qed.

(** Claim C5. Whatever the world and the query, a call of the tool that
    returns gives a dictionary of exactly one of the two shapes: the keys
    are "response" and "sources" and there is no "error" key, or the only
    key is "error".  A call can only raise past the guard, with a truthy
    router in the global. *)
Theorem chat_result_shape (query : string) (w : World) :
  match fst (chat_with_content query w) with
  | Returned d =>
      (success_shape d /\ ~ error_shape d /\ d !! "error" = None) \/
      (error_shape d /\ ~ success_shape d /\
       d !! "response" = None /\ d !! "sources" = None)
  | Raised e => truth (agent_router w) = true
  end.
Proof.
  destruct (truth (agent_router w)) eqn:Ht.
  - destruct (truth_Some _ Ht) as (r & Hr & Htr).
    rewrite (chat_truthy query w r Hr Htr).
    destruct (tool_body r (trace w) query) as [d | e] eqn:Hbody; cbn [fst].
    + destruct (tool_body_answer _ _ _ _ Hbody) as (response & sources & ->).
      left. apply answer_shape.
    + unfold handled. destruct (exc_is_Exception e); cbn [fst]; [| reflexivity].
      destruct (exc_str e) as [text | e']; cbn [fst]; [| reflexivity].
      right. apply error_payload_shape.
  - rewrite (chat_falsy query w Ht). cbn [fst].
    right. apply error_payload_shape.
Qed.

(** ** The start routine, path by path *)

Lemma run_mcp_server_paths (env : Env) (provided : option Router) (w : World) :
  run_mcp_server env provided w =
    match initialize env provided w with
    | (Raised e, w1) => (Raised e, w1)
    | (Returned chosen, w1) =>
        let w2 := mkWorld chosen (console_level w1) (trace w1) in
        if negb (truth chosen) then
          (Raised (RuntimeError
             "Shared services must be initialized before starting the server"), w2)
        else
          match logging_fault env (trace w2) "CRITICAL" with
          | Some (e, level_after) =>
              (Raised (reraised e),
               record (mkWorld chosen level_after (trace w2))
                      (EvConfigureLogging "CRITICAL" :: crash_log e))
          | None =>
              let w3 := mkWorld chosen "CRITICAL"
                          (trace w2 ++ [EvConfigureLogging "CRITICAL"]) in
              match session env (trace w3) with
              | StartFailure e =>
                  (Raised (reraised e),
                   record w3 (EvRun "stdio" "CRITICAL" :: crash_log e))
              | Serve requests ending escalate =>
                  match dispatch requests
                          (record w3 [EvRun "stdio" "CRITICAL"; EvServing]) with
                  | (Raised e, w4) =>
                      (Raised (reraised (escalate e)),
                       record w4 (crash_log (escalate e)))
                  | (Returned _, w4) =>
                      match ending with
                      | None => (Returned tt, w4)
                      | Some e => (Raised (reraised e), record w4 (crash_log e))
                      end
                  end
              end
          end
    end.
Proof.
  assert (Hcrash : forall (e : PyExc) (w1 : World),
            (if exc_is_Exception e
             then (logged ← str e;
                   logger_error ("MCP server failed to start or crashed: " +:+ logged);;
                   raise e) w1
             else (Raised e, w1)) =
            (Raised (A := unit) (reraised e), record w1 (crash_log e))).
  { intros e [h1 c1 t1].
    unfold reraised, crash_log, str, mbind, M_bind, bind, logger_error, emit, record,
      mret, M_ret, ret, raise.
    destruct (exc_is_Exception e); cbn; [| now rewrite app_nil_r].
    destruct (exc_str e) as [text | e']; cbn; [reflexivity | now rewrite app_nil_r]. }
  unfold run_mcp_server. unfold mbind at 1, M_bind at 1, bind at 1.
  destruct (initialize env provided w) as [[chosen | e] w1]; [| reflexivity].
  destruct w1 as [h1 c1 t1].
  unfold mbind at 1, M_bind at 1, bind at 1, write_agent_router.
  unfold mbind at 1, M_bind at 1, bind at 1, read_agent_router.
  cbn [agent_router console_level trace].
  destruct (truth chosen); cbn [negb]; [| reflexivity].
  unfold try_except_Exception.
  unfold mbind at 1, M_bind at 1, bind at 1, configure_logging.
  unfold mbind at 1, M_bind at 1, bind at 1, get_world.
  unfold mbind at 1, M_bind at 1, bind at 1, emit at 1, record at 1.
  cbn [agent_router console_level trace].
  destruct (logging_fault env t1 "CRITICAL") as [[e level_after] |].
  - unfold mbind at 1, M_bind at 1, bind at 1, set_console_level, raise at 1.
    cbn [agent_router console_level trace].
    rewrite Hcrash. unfold record; cbn. now rewrite <- app_assoc.
  - unfold set_console_level. cbn [agent_router console_level trace].
    unfold mcp_run.
    unfold mbind at 1, M_bind at 1, bind at 1, get_world.
    unfold mbind at 1, M_bind at 1, bind at 1, emit at 1, record at 1.
    cbn [agent_router console_level trace].
    destruct (session env (t1 ++ [EvConfigureLogging "CRITICAL"]))
      as [e | requests ending escalate].
    + unfold raise at 1. rewrite Hcrash. unfold record; cbn.
      now rewrite <- app_assoc.
    + unfold mbind at 1, M_bind at 1, bind at 1, emit at 1, record at 1.
      cbn [agent_router console_level trace].
      unfold mbind at 1, M_bind at 1, bind at 1, escalated.
      assert (Hw3 : mkWorld chosen "CRITICAL"
                      (((t1 ++ [EvConfigureLogging "CRITICAL"])
                        ++ [EvRun "stdio" "CRITICAL"]) ++ [EvServing]) =
                    record (mkWorld chosen "CRITICAL"
                              (t1 ++ [EvConfigureLogging "CRITICAL"]))
                           [EvRun "stdio" "CRITICAL"; EvServing]).
      { unfold record; cbn. now rewrite <- app_assoc. }
      rewrite Hw3.
      destruct (dispatch requests _) as [[[] | e] w4].
      * destruct ending as [e |]; [| reflexivity].
        unfold raise. apply Hcrash.
      * apply Hcrash.
Qed.



Lemma new_events_record (w : World) (evs : list Event) :
  new_events w (record w evs) = evs.
Proof. unfold new_events, record; cbn. apply drop_app_length. Qed.

(** Events of the tool are no constructions and no transport runs, and
    the routers they query are the one in the global. *)
Lemma tool_events_constructions (h : option Router) (evs : list Event) :
  forallb (tool_event h) evs = true -> constructions evs = [].
Proof.
  induction evs as [| ev evs IH]; cbn; [reflexivity |].
  intros Hall. apply andb_prop in Hall as [Hev Hevs].
  destruct ev; cbn in *; try discriminate; auto.
Qed.

Lemma tool_events_queried (r : Router) (evs : list Event) (i : nat) :
  forallb (tool_event (Some r)) evs = true -> In i (queried evs) -> i = rid r.
Proof.
  induction evs as [| ev evs IH]; cbn; [tauto |].
  intros Hall Hin. apply andb_prop in Hall as [Hev Hevs].
  destruct ev; cbn in *; try discriminate; auto.
  destruct Hin as [<- | Hin]; [| auto].
  now apply Nat.eqb_eq.
Qed.

Lemma tool_events_suppressed (h : option Router) (evs : list Event) (configured : bool) :
  forallb (tool_event h) evs = true -> suppressed_at_runs configured evs = true.
Proof.
  induction evs as [| ev evs IH]; cbn; [reflexivity |].
  intros Hall. apply andb_prop in Hall as [Hev Hevs].
  destruct ev; cbn in *; try discriminate; auto.
Qed.

Lemma tool_events_serving (h : option Router) (evs : list Event) :
  forallb (tool_event h) evs = true -> ~ In EvServing evs.
Proof.
  induction evs as [| ev evs IH]; cbn; [tauto |].
  intros Hall. apply andb_prop in Hall as [Hev Hevs].
  intros [-> | Hin]; [cbn in Hev; discriminate | exact (IH Hevs Hin)].
Qed.

Lemma crash_log_tool (h : option Router) (e : PyExc) :
  forallb (tool_event h) (crash_log e) = true.
Proof.
  unfold crash_log. destruct (exc_is_Exception e); [| reflexivity].
  now destruct (exc_str e).
Qed.

(** What [initialize] leaves: the global untouched, and a construction on
    record exactly when nothing truthy was provided. *)
Lemma initialize_paths (env : Env) (provided : option Router) (w : World) :
  initialize env provided w =
    if truth provided then (Returned provided, w)
    else (AgentRouter env (trace w) (DEFAULT_EMBEDDING_MODEL env),
          record w [EvConstruct (DEFAULT_EMBEDDING_MODEL env)]).
Proof. unfold initialize. now destruct (truth provided). Qed.

Lemma initialize_trace (env : Env) (provided : option Router) (w : World) :
  trace (snd (initialize env provided w)) =
    trace w ++ (if truth provided then []
                else [EvConstruct (DEFAULT_EMBEDDING_MODEL env)]).
Proof.
  rewrite initialize_paths. destruct (truth provided); cbn; [| reflexivity].
  now rewrite app_nil_r.
Qed.

(** The trace after one start: what [initialize] left, then an initial
    part of [startup_steps], then events of the tool and the crash log.
    The global ends as chosen by [initialize]. *)
Lemma run_mcp_server_trace (env : Env) (provided : option Router) (w : World) :
  let w' := snd (run_mcp_server env provided w) in
  exists (n : nat) (rest : list Event),
    trace w' =
      trace (snd (initialize env provided w)) ++ take n startup_steps ++ rest /\
    forallb (tool_event (agent_router w')) rest = true /\
    (forall chosen, fst (initialize env provided w) = Returned chosen ->
                    agent_router w' = chosen) /\
    (2 <= n -> console_level w' = "CRITICAL").
Proof.
  cbn zeta. rewrite run_mcp_server_paths.
  destruct (initialize env provided w) as [[chosen | e] w1]; cbn [fst snd].
  2:{ exists 0, []. cbn. rewrite app_nil_r.
      split; [reflexivity | split; [reflexivity | split; [discriminate | lia]]]. }
  cbn zeta. destruct (truth chosen) eqn:Hchosen; cbn [negb].
  2:{ exists 0, []. cbn. rewrite app_nil_r.
      split; [reflexivity | split; [reflexivity | split; [now intros ? [= <-] | lia]]]. }
  destruct (logging_fault env _ "CRITICAL") as [[e level_after] |].
  { exists 1, (crash_log e). cbn.
    split; [reflexivity | split; [apply crash_log_tool | ]].
    split; [now intros ? [= <-] | lia]. }
  destruct (session env _) as [e | requests ending escalate].
  { exists 2, (crash_log e). cbn. rewrite <- app_assoc.
    split; [reflexivity | split; [apply crash_log_tool | ]].
    split; [now intros ? [= <-] | reflexivity]. }
  match goal with |- context [dispatch requests ?w3] =>
    destruct (dispatch_frame requests w3) as (evs & Hw4 & Hevs) end.
  cbn in Hevs.
  assert (Hlog : forall e, forallb (tool_event chosen) (evs ++ crash_log e) = true).
  { intros e. rewrite forallb_app, Hevs. apply crash_log_tool. }
  destruct (dispatch requests _) as [[[] | e] w4]; cbn in Hw4; subst w4.
  - destruct ending as [e |].
    + exists 3, (evs ++ crash_log e). cbn. rewrite <- !app_assoc.
      split; [reflexivity | split; [apply Hlog | ]].
      split; [now intros ? [= <-] | reflexivity].
    + exists 3, evs. cbn. rewrite <- !app_assoc.
      split; [reflexivity | split; [exact Hevs | ]].
      split; [now intros ? [= <-] | reflexivity].
  - exists 3, (evs ++ crash_log (escalate e)). cbn. rewrite <- !app_assoc.
    split; [reflexivity | split; [apply Hlog | ]].
    split; [now intros ? [= <-] | reflexivity].
Qed.

(** The same, as the events the start adds. *)
Lemma run_mcp_server_events (env : Env) (provided : option Router) (w : World) :
  let w' := snd (run_mcp_server env provided w) in
  exists (n : nat) (rest : list Event),
    new_events w w' =
      (if truth provided then [] else [EvConstruct (DEFAULT_EMBEDDING_MODEL env)])
      ++ take n startup_steps ++ rest /\
    forallb (tool_event (agent_router w')) rest = true /\
    (forall chosen, fst (initialize env provided w) = Returned chosen ->
                    agent_router w' = chosen) /\
    (2 <= n -> console_level w' = "CRITICAL").
Proof.
  destruct (run_mcp_server_trace env provided w) as (n & rest & Htr & Hrest).
  exists n, rest. split; [| exact Hrest].
  unfold new_events. rewrite Htr, initialize_trace, <- app_assoc.
  apply drop_app_length.
Qed.

Lemma startup_steps_constructions (n : nat) :
  constructions (take n startup_steps) = [].
Proof. now destruct n as [| [| [| [| n]]]]. Qed.

Lemma startup_steps_queried (n : nat) :
  queried (take n startup_steps) = [].
Proof. now destruct n as [| [| [| [| n]]]]. Qed.

Lemma startup_steps_suppressed (h : option Router) (n : nat) (rest : list Event) :
  forallb (tool_event h) rest = true ->
  suppressed_at_runs false (take n startup_steps ++ rest) = true.
Proof.
  intros Hrest. destruct n as [| [| [| [| n]]]]; cbn;
    now rewrite (tool_events_suppressed h rest _ Hrest).
Qed.

Lemma suppressed_at_runs_sound (pre post : list Event) (transport console : string) :
  forall (configured : bool) (evs : list Event),
    suppressed_at_runs configured evs = true ->
    evs = pre ++ EvRun transport console :: post ->
    transport = "stdio" /\ console = "CRITICAL" /\
    (configured = true \/ In (EvConfigureLogging "CRITICAL") pre).
Proof.
  induction pre as [| ev pre IH]; intros configured evs Hok ->.
  - cbn in Hok. apply andb_prop in Hok as [Hok _].
    apply andb_prop in Hok as [Hok Hc]. apply andb_prop in Hok as [Hconf Ht].
    apply String.eqb_eq in Ht, Hc. auto.
  - cbn [app] in Hok.
    assert (Hstep : forall b,
              suppressed_at_runs b (pre ++ EvRun transport console :: post) = true ->
              (b = true -> configured = true \/ ev = EvConfigureLogging "CRITICAL") ->
              transport = "stdio" /\ console = "CRITICAL" /\
              (configured = true \/ In (EvConfigureLogging "CRITICAL") (ev :: pre))).
    { intros b Hb Hconf. destruct (IH _ _ Hb eq_refl) as (Ht & Hc & [Hb' | Hin]).
      - split; [exact Ht | split; [exact Hc |]].
        destruct (Hconf Hb') as [? | ->]; [now left | right; now left].
      - split; [exact Ht | split; [exact Hc |]]. right. now right. }
    destruct ev; cbn in Hok; try (apply (Hstep configured Hok); now left).
    + apply (Hstep _ Hok). intros Heq. right.
      apply String.eqb_eq in Heq. now subst.
    + apply andb_prop in Hok as [_ Hrest].
      apply (Hstep configured Hrest). now left.
Qed.

(** ** The start routine: the instance in the global *)

(** Claim C4, as stated, at an instance whose [bool] is [False]: it is
    provided, and it is not adopted; the test [if init_agent_router] sends
    the start to the constructor, and the router the tool queries is the
    one built. *)
Lemma provided_falsy_is_replaced :
  let w' := snd (run_mcp_server (Stubs.env Stubs.working ["hello"])
                                (Some Stubs.hollow) Stubs.w0) in
  agent_router w' = Some Stubs.working /\
  rid Stubs.working <> rid Stubs.hollow /\
  constructions (new_events Stubs.w0 w') = ["m1"] /\
  queried (new_events Stubs.w0 w') = [rid Stubs.working].
Proof. repeat split. discriminate. Qed.

(** Claim C4, amended. At a start, an instance provided to
    [run_mcp_server] that is truthy is adopted: nothing is constructed,
    the global holds it when the start ends, and every [process_query]
    dispatched in between went to it.  When none is provided, or the one
    provided is falsy, the class is called exactly once, with the default
    embedding model, and when that call yields an instance the global
    holds it when the start ends and every [process_query] dispatched in
    between went to it. *)
Theorem startup_adopts_or_constructs (env : Env) (provided : option Router) (w : World) :
  let w' := snd (run_mcp_server env provided w) in
  (forall r, provided = Some r -> truthy r = true ->
     agent_router w' = Some r /\
     constructions (new_events w w') = [] /\
     forall i, In i (queried (new_events w w')) -> i = rid r) /\
  (truth provided = false ->
     constructions (new_events w w') = [DEFAULT_EMBEDDING_MODEL env] /\
     forall r, AgentRouter env (trace w) (DEFAULT_EMBEDDING_MODEL env) = Returned (Some r) ->
       agent_router w' = Some r /\
       forall i, In i (queried (new_events w w')) -> i = rid r).
Proof.
  intros w'.
  destruct (run_mcp_server_events env provided w)
    as (n & rest & Hnew & Hrest & Hchosen & _).
  fold w' in Hnew, Hrest, Hchosen. rewrite initialize_paths in Hchosen.
  split.
  - intros r -> Ht. cbn [truth] in Hnew, Hchosen. rewrite Ht in Hnew, Hchosen.
    specialize (Hchosen _ eq_refl). rewrite Hchosen in Hrest.
    rewrite Hnew. cbn [app]. unfold constructions, queried.
    rewrite !flat_map_app.
    fold (constructions (take n startup_steps)) (constructions rest)
         (queried (take n startup_steps)) (queried rest).
    rewrite startup_steps_constructions, startup_steps_queried,
      (tool_events_constructions _ _ Hrest).
    repeat split; [exact Hchosen |]. cbn [app].
    intros i. now apply tool_events_queried.
  - intros Hf. rewrite Hf in Hnew, Hchosen. rewrite Hnew.
    unfold constructions, queried. rewrite !flat_map_app.
    fold (constructions (take n startup_steps)) (constructions rest)
         (queried (take n startup_steps)) (queried rest).
    rewrite startup_steps_constructions, startup_steps_queried,
      (tool_events_constructions _ _ Hrest).
    split; [reflexivity |].
    intros r Hbuilt. cbn [fst] in Hchosen. rewrite Hbuilt in Hchosen.
    specialize (Hchosen _ eq_refl). rewrite Hchosen in Hrest.
    split; [exact Hchosen |]. cbn.
    intros i. now apply tool_events_queried.
Qed.

Lemma startup_adopts_or_constructs_witness :
  (let w' := snd (run_mcp_server (Stubs.env Stubs.terse ["hello"])
                                 (Some Stubs.working) Stubs.w0) in
   agent_router w' = Some Stubs.working /\
   constructions (new_events Stubs.w0 w') = [] /\
   forall i, In i (queried (new_events Stubs.w0 w')) -> i = rid Stubs.working) /\
  (let w' := snd (run_mcp_server (Stubs.env Stubs.working ["hello"]) None Stubs.w0) in
   constructions (new_events Stubs.w0 w') = ["m1"] /\
   agent_router w' = Some Stubs.working /\
   forall i, In i (queried (new_events Stubs.w0 w')) -> i = rid Stubs.working).
Proof.
  split.
  - apply (startup_adopts_or_constructs (Stubs.env Stubs.terse ["hello"])
             (Some Stubs.working) Stubs.w0); reflexivity.
  - destruct (startup_adopts_or_constructs (Stubs.env Stubs.working ["hello"])
                None Stubs.w0) as [_ Hnone].
    destruct (Hnone eq_refl) as [Hone Hbuilt].
    split; [exact Hone |]. apply (Hbuilt Stubs.working). reflexivity.
Defined.

Lemma tool_events_run (h : option Router) (evs : list Event) (transport console : string) :
  forallb (tool_event h) evs = true -> ~ In (EvRun transport console) evs.
Proof.
  induction evs as [| ev evs IH]; cbn; [tauto |].
  intros Hall. apply andb_prop in Hall as [Hev Hevs].
  intros [-> | Hin]; [cbn in Hev; discriminate | exact (IH Hevs Hin)].
Qed.

Lemma startup_steps_run (n : nat) (transport console : string) :
  In (EvRun transport console) (take n startup_steps) -> 2 <= n.
Proof.
  destruct n as [| [| n]]; cbn; [tauto | | lia].
  intros [Heq | []]. discriminate.
Qed.

Lemma level_no_bound (name : string) (n : nat) :
  level_no name = Some n -> n <= 50.
Proof.
  unfold level_no.
  repeat (match goal with |- context [String.eqb ?a ?b] => destruct (String.eqb a b) end;
          [intros [= <-]; lia |]).
  discriminate.
Qed.

(** ** The start routine: logging before the transport *)

(** Claim C6. Whenever a start enters the transport ([mcp.run] is called,
    first [pre] then the run then [post] being the events of the start),
    it is the stdio transport, the console level it starts under is
    "CRITICAL", [configure_logging("CRITICAL")] was called before, among
    [pre], and the console level is still "CRITICAL" when the start ends.
    No level name of [logging] ranks above "CRITICAL". *)
Theorem logging_suppressed_before_transport (env : Env) (provided : option Router)
    (w : World) (pre post : list Event) (transport console : string) :
  new_events w (snd (run_mcp_server env provided w)) =
    pre ++ EvRun transport console :: post ->
  transport = "stdio" /\
  console = "CRITICAL" /\
  In (EvConfigureLogging "CRITICAL") pre /\
  console_level (snd (run_mcp_server env provided w)) = "CRITICAL" /\
  level_no "CRITICAL" = Some 50 /\
  forall name n, level_no name = Some n -> n <= 50.
Proof.
  intros Hsplit.
  destruct (run_mcp_server_events env provided w)
    as (n & rest & Hnew & Hrest & _ & Hconsole).
  assert (Hok : suppressed_at_runs false
                  (pre ++ EvRun transport console :: post) = true).
  { rewrite <- Hsplit, Hnew.
    destruct (truth provided); cbn [app suppressed_at_runs];
      exact (startup_steps_suppressed _ n rest Hrest). }
  destruct (suppressed_at_runs_sound pre post transport console _ _ Hok eq_refl)
    as (Ht & Hc & [Hconf | Hin]); [discriminate |].
  assert (Hn : 2 <= n).
  { assert (Hrun : In (EvRun transport console) (new_events w
                      (snd (run_mcp_server env provided w)))).
    { rewrite Hsplit. apply in_elt. }
    rewrite Hnew in Hrun. apply in_app_or in Hrun as [Hrun | Hrun].
    - destruct (truth provided); cbn in Hrun; [tauto |].
      destruct Hrun as [Heq | []]. discriminate.
    - apply in_app_or in Hrun as [Hrun | Hrun].
      + exact (startup_steps_run _ _ _ Hrun).
      + destruct (tool_events_run _ _ _ _ Hrest Hrun). }
  split; [exact Ht | split; [exact Hc | split; [exact Hin |]]].
  split; [exact (Hconsole Hn) | split; [reflexivity | exact level_no_bound]].
Qed.

Lemma logging_suppressed_before_transport_witness :
  let w' := snd (run_mcp_server (Stubs.env Stubs.terse ["hello"])
                                (Some Stubs.working) Stubs.w0) in
  new_events Stubs.w0 w' =
    [EvConfigureLogging "CRITICAL"] ++ EvRun "stdio" "CRITICAL" ::
    [EvServing; EvProcessQuery 1 "hello"; EvReply "hello" Stubs.full_answer] /\
  In (EvConfigureLogging "CRITICAL") [EvConfigureLogging "CRITICAL"] /\
  console_level w' = "CRITICAL".
Proof.
  split; [reflexivity |].
  destruct (logging_suppressed_before_transport
              (Stubs.env Stubs.terse ["hello"]) (Some Stubs.working) Stubs.w0
              [EvConfigureLogging "CRITICAL"]
              [EvServing; EvProcessQuery 1 "hello"; EvReply "hello" Stubs.full_answer]
              "stdio" "CRITICAL" eq_refl) as (_ & _ & Hin & Hconsole & _).
  split; assumption.
Defined.

(** ** The start routine: failures *)

(** Claim C7. A start fails, and the failure reaches the caller of
    [run_mcp_server], in each of these cases: the constructor throws (the
    raise leaves as it is, the global is not written); the constructor
    yields [None] or a falsy instance ([RuntimeError] is raised); the
    transport throws as control is handed to it (the raise is logged when
    it is an [Exception], and raised again; should its [str] raise while
    the record is being made, that raise is what reaches the caller, and
    nothing is logged).  In none of them does the transport loop serve,
    and nothing is tried a second time: the events of the start are one
    construction at most and one transport run at most. *)
Theorem startup_failures_propagate (env : Env) (provided : option Router) (w : World) :
  (forall e,
     truth provided = false ->
     AgentRouter env (trace w) (DEFAULT_EMBEDDING_MODEL env) = Raised e ->
     run_mcp_server env provided w =
       (Raised e, record w [EvConstruct (DEFAULT_EMBEDDING_MODEL env)]) /\
     ~ In EvServing (new_events w (snd (run_mcp_server env provided w)))) /\
  (forall built,
     truth provided = false ->
     AgentRouter env (trace w) (DEFAULT_EMBEDDING_MODEL env) = Returned built ->
     truth built = false ->
     run_mcp_server env provided w =
       (Raised (RuntimeError
          "Shared services must be initialized before starting the server"),
        mkWorld built (console_level w)
                (trace w ++ [EvConstruct (DEFAULT_EMBEDDING_MODEL env)])) /\
     ~ In EvServing (new_events w (snd (run_mcp_server env provided w)))) /\
  (forall chosen w1 e,
     initialize env provided w = (Returned chosen, w1) ->
     truth chosen = true ->
     logging_fault env (trace w1) "CRITICAL" = None ->
     session env (trace w1 ++ [EvConfigureLogging "CRITICAL"]) = StartFailure e ->
     run_mcp_server env provided w =
       (Raised (reraised e),
        mkWorld chosen "CRITICAL"
                (trace w1 ++ [EvConfigureLogging "CRITICAL"; EvRun "stdio" "CRITICAL"]
                          ++ crash_log e)) /\
     (forall text, exc_str e = inl text ->
                   fst (run_mcp_server env provided w) = Raised e) /\
     ~ In EvServing (new_events w (snd (run_mcp_server env provided w)))).
Proof.
  split; [| split].
  - intros e Hf Hraise. rewrite run_mcp_server_paths, initialize_paths, Hf, Hraise.
    split; [reflexivity |]. cbn [snd]. rewrite new_events_record.
    intros [Heq | []]. discriminate.
  - intros built Hf Hbuilt Hfalsy.
    rewrite run_mcp_server_paths, initialize_paths, Hf, Hbuilt. cbn zeta.
    rewrite Hfalsy. cbn [negb]. split; [reflexivity |].
    unfold new_events; cbn. rewrite drop_app_length.
    intros [Heq | []]. discriminate.
  - intros chosen w1 e Hinit Htruthy Hlog Hstart.
    pose proof (initialize_trace env provided w) as Htrace.
    rewrite run_mcp_server_paths, Hinit. rewrite Hinit in Htrace. cbn [snd] in Htrace.
    cbn zeta. rewrite Htruthy. cbn [negb trace]. rewrite Hlog, Hstart.
    unfold record; cbn [agent_router console_level trace snd].
    rewrite <- app_assoc. split; [reflexivity |]. split.
    { intros text Hstr. cbn [fst]. unfold reraised. rewrite Hstr.
      now destruct (exc_is_Exception e). }
    unfold new_events; cbn [trace]. rewrite Htrace, <- app_assoc, drop_app_length.
    intros Hin. apply in_app_or in Hin as [Hin | Hin].
    + destruct (truth provided); cbn in Hin; [tauto |].
      destruct Hin as [Heq | []]. discriminate.
    + cbn in Hin. destruct Hin as [Heq | [Heq | Hin]]; try discriminate.
      exact (tool_events_serving None _ (crash_log_tool None e) Hin).
Qed.

Lemma startup_failures_propagate_witness :
  (run_mcp_server Stubs.broken_class None Stubs.w0 =
     (Raised (mkExc "ValueError" true "no such model"),
      record Stubs.w0 [EvConstruct "m1"]) /\
   ~ In EvServing
       (new_events Stubs.w0 (snd (run_mcp_server Stubs.broken_class None Stubs.w0)))) /\
  (run_mcp_server (Stubs.env Stubs.hollow ["hello"]) None Stubs.w0 =
     (Raised (RuntimeError
        "Shared services must be initialized before starting the server"),
      mkWorld (Some Stubs.hollow) "INFO" (trace Stubs.w0 ++ [EvConstruct "m1"])) /\
   ~ In EvServing
       (new_events Stubs.w0
          (snd (run_mcp_server (Stubs.env Stubs.hollow ["hello"]) None Stubs.w0)))) /\
  (run_mcp_server Stubs.dead_transport (Some Stubs.working) Stubs.w0 =
     (Raised (mkExc "OSError" true "stdin closed"),
      mkWorld (Some Stubs.working) "CRITICAL"
        (trace Stubs.w0 ++ [EvConfigureLogging "CRITICAL"; EvRun "stdio" "CRITICAL"]
           ++ [EvLog "ERROR" "MCP server failed to start or crashed: stdin closed"])) /\
   ~ In EvServing
       (new_events Stubs.w0
          (snd (run_mcp_server Stubs.dead_transport (Some Stubs.working) Stubs.w0)))).
Proof.
  split; [| split].
  - destruct (startup_failures_propagate Stubs.broken_class None Stubs.w0)
      as [Hthrows _].
    apply Hthrows; reflexivity.
  - destruct (startup_failures_propagate (Stubs.env Stubs.hollow ["hello"]) None Stubs.w0)
      as [_ [Hinvalid _]].
    apply (Hinvalid (Some Stubs.hollow)); reflexivity.
  - destruct (startup_failures_propagate Stubs.dead_transport (Some Stubs.working) Stubs.w0)
      as [_ [_ Htransport]].
    destruct (Htransport (Some Stubs.working) Stubs.w0
                (mkExc "OSError" true "stdin closed")
                eq_refl eq_refl eq_refl eq_refl) as (Hrun & _ & Hnever).
    split; [exact Hrun | exact Hnever].
Defined.

(** ** The module global is written once *)

(** Claim C8. No call of the tool writes the module global, whether it
    returns a success payload, either error payload, or lets a raise
    through; nor does any run of calls dispatched by the transport loop.
    The one write is the assignment in [run_mcp_server]: when a start
    ends, whatever was dispatched in between, the global holds what
    [initialize] chose, and it is left as it was when [initialize]
    raised. *)
Theorem chat_preserves_handle :
  (forall (query : string) (w : World),
     agent_router (snd (chat_with_content query w)) = agent_router w) /\
  (forall (requests : list string) (w : World),
     agent_router (snd (dispatch requests w)) = agent_router w) /\
  (forall (env : Env) (provided : option Router) (w : World),
     agent_router (snd (run_mcp_server env provided w)) =
       match fst (initialize env provided w) with
       | Returned chosen => chosen
       | Raised _ => agent_router w
       end).
Proof.
  split; [| split].
  - intros query w. destruct (chat_frame query w) as (evs & Hw & _).
    now rewrite Hw.
  - intros requests w. destruct (dispatch_frame requests w) as (evs & Hw & _).
    now rewrite Hw.
  - intros env provided w.
    destruct (run_mcp_server_trace env provided w) as (_ & _ & _ & _ & Hchosen & _).
    destruct (fst (initialize env provided w)) as [chosen | e] eqn:Hinit.
    + now apply Hchosen.
    + rewrite run_mcp_server_paths. rewrite initialize_paths in Hinit |- *.
      destruct (truth provided); [discriminate |]. cbn [fst] in Hinit.
      now rewrite Hinit.
Qed.

(** * Further properties of the module *)

(** ** One call of the tool *)

Lemma answer_not_guard (response sources : PyVal) :
  answer response sources <> not_initialized.
Proof.
  intros Heq. apply (f_equal (fun d : Dict => d !! "response")) in Heq.
  discriminate Heq.
Qed.

Lemma processing_error_not_guard (detail : string) :
  processing_error detail <> not_initialized.
Proof.
  intros Heq. apply (f_equal (fun d : Dict => d !! "error")) in Heq.
  unfold processing_error, not_initialized in Heq.
  rewrite !lookup_singleton_eq in Heq. discriminate Heq.
Qed.

(** Property X1. The payload [{"error": "Service not initialized"}] is
    returned exactly when the module global is falsy: with a truthy
    router in the global no answer and no failure of the collaborator,
    whatever its text, comes out as that payload. *)
Theorem chat_not_initialized_iff (query : string) (w : World) :
  fst (chat_with_content query w) =
    Returned {[ "error" := PyStr "Service not initialized" ]}
  <-> truth (agent_router w) = false.
Proof.
  assert (Hinj : forall d d' : Dict, Returned d = Returned d' -> d = d')
    by (intros d d' Heq; now inversion Heq).
  split.
  - destruct (truth (agent_router w)) eqn:Ht; [| reflexivity].
    destruct (truth_Some _ Ht) as (r & Hr & Htr).
    rewrite (chat_truthy query w r Hr Htr).
    destruct (tool_body r (trace w) query) as [d | e] eqn:Hbody; cbn [fst].
    + destruct (tool_body_answer _ _ _ _ Hbody) as (response & sources & ->).
      intros Heq. apply Hinj in Heq. destruct (answer_not_guard _ _ Heq).
    + unfold handled. destruct (exc_is_Exception e); cbn [fst]; [| discriminate].
      destruct (exc_str e) as [text | e']; cbn [fst]; [| discriminate].
      intros Heq. apply Hinj in Heq. destruct (processing_error_not_guard _ Heq).
  - intros Hf. now rewrite (chat_falsy query w Hf).
Qed.

Lemma new_events_refl (w : World) : new_events w w = [].
Proof. unfold new_events. apply drop_all. Qed.

Lemma handled_invocations (e : PyExc) : invocations (snd (handled e)) = [].
Proof.
  unfold handled. destruct (exc_is_Exception e); [| reflexivity].
  now destruct (exc_str e).
Qed.

(** Property X2. One call of the tool calls [process_query] exactly once
    when the global holds a truthy router, on that router and with the
    query as it was given (nothing is stripped or checked, the empty query
    included), and not at all otherwise; there is no second attempt on any
    path.  The console level is left as it was. *)
Theorem chat_invokes_once (query : string) (w : World) :
  let w' := snd (chat_with_content query w) in
  invocations (new_events w w') =
    match agent_router w with
    | Some r => if truthy r then [(rid r, query)] else []
    | None => []
    end /\
  console_level w' = console_level w.
Proof.
  cbn zeta. destruct (truth (agent_router w)) eqn:Ht.
  - destruct (truth_Some _ Ht) as (r & Hr & Htr).
    rewrite (chat_truthy query w r Hr Htr), Hr, Htr.
    destruct (tool_body r (trace w) query) as [d | e]; cbn [snd];
      rewrite new_events_record; (split; [| reflexivity]); [reflexivity |].
    cbn. now rewrite handled_invocations.
  - rewrite (chat_falsy query w Ht). cbn [snd]. rewrite new_events_refl.
    split; [| reflexivity].
    destruct (agent_router w) as [r |]; [| reflexivity].
    cbn in Ht. now rewrite Ht.
Qed.


(** ** Calls in a row *)

Lemma record_nil (w : World) : record w [] = w.
Proof. destruct w; unfold record; cbn. now rewrite app_nil_r. Qed.

(** Property X4. As long as the module global is falsy, calls dispatched
    one after the other are all answered with
    [{"error": "Service not initialized"}], in order, one reply per
    request; nothing else happens: the collaborator is not called, nothing
    is logged, and the global stays as it is, so the tool does not recover
    by itself. *)
Theorem dispatch_before_start (requests : list string) (w : World) :
  truth (agent_router w) = false ->
  dispatch requests w =
    (Returned tt,
     record w (map (fun query =>
                      EvReply query {[ "error" := PyStr "Service not initialized" ]})
                   requests)).
Proof.
  revert w. induction requests as [| query rest IH]; intros w Hf.
  - cbn. now rewrite record_nil.
  - cbn [dispatch map]. unfold mbind, M_bind, bind.
    rewrite (chat_falsy query w Hf). unfold emit.
    rewrite (IH (record w [EvReply query not_initialized]) Hf).
    now rewrite record_record.
Qed.

Lemma dispatch_before_start_witness :
  dispatch ["a"; "b"] Stubs.w0 =
    (Returned tt,
     record Stubs.w0
       [EvReply "a" {[ "error" := PyStr "Service not initialized" ]};
        EvReply "b" {[ "error" := PyStr "Service not initialized" ]}]).
Proof. apply (dispatch_before_start ["a"; "b"] Stubs.w0). reflexivity. Defined.

(** ** More paths of the start routine *)

Lemma initialize_returned (env : Env) (provided chosen : option Router) (w w1 : World) :
  initialize env provided w = (Returned chosen, w1) ->
  console_level w1 = console_level w /\
  trace w1 = trace w ++ (if truth provided then []
                         else [EvConstruct (DEFAULT_EMBEDDING_MODEL env)]).
Proof.
  intros Hinit. split.
  - rewrite initialize_paths in Hinit.
    destruct (truth provided); inversion Hinit; reflexivity.
  - pose proof (initialize_trace env provided w) as Htrace.
    now rewrite Hinit in Htrace.
Qed.



(** Property X7. A start that returns has served: [run_mcp_server] comes
    back without a raise only after logging was lowered, the stdio
    transport was entered and accepted calls, and then closed; at that
    point the global holds a truthy router and the console level is
    "CRITICAL". *)
Theorem start_returns_only_after_serving (env : Env) (provided : option Router)
    (w : World) :
  fst (run_mcp_server env provided w) = Returned tt ->
  let w' := snd (run_mcp_server env provided w) in
  truth (agent_router w') = true /\
  console_level w' = "CRITICAL" /\
  exists tail,
    new_events w w' =
      (if truth provided then [] else [EvConstruct (DEFAULT_EMBEDDING_MODEL env)])
      ++ [EvConfigureLogging "CRITICAL"; EvRun "stdio" "CRITICAL"; EvServing] ++ tail /\
    forallb (tool_event (agent_router w')) tail = true.
Proof.
  cbn zeta. rewrite run_mcp_server_paths.
  destruct (initialize env provided w) as [[chosen | e] w1] eqn:Hinit;
    [| discriminate].
  destruct (initialize_returned _ _ _ _ _ Hinit) as [_ Htrace].
  cbn zeta. destruct (truth chosen) eqn:Htruthy; cbn [negb]; [| discriminate].
  destruct (logging_fault env _ "CRITICAL") as [[e level_after] |]; [discriminate |].
  destruct (session env _) as [e | requests ending escalate]; [discriminate |].
  match goal with |- context [dispatch requests ?w3] =>
    destruct (dispatch_frame requests w3) as (evs & Hw4 & Hevs) end.
  destruct (dispatch requests _) as [[[] | e] w4]; [| discriminate].
  destruct ending; [discriminate |]. intros _.
  cbn [fst snd] in *. subst w4. cbn in Hevs.
  split; [exact Htruthy | split; [reflexivity |]].
  exists evs. split; [| exact Hevs].
  unfold new_events, record; cbn [trace].
  rewrite Htrace, <- !app_assoc. apply drop_app_length.
Qed.

Lemma start_returns_only_after_serving_witness :
  let env := Stubs.env Stubs.working ["hello"] in
  let w' := snd (run_mcp_server env None Stubs.w0) in
  truth (agent_router w') = true /\
  console_level w' = "CRITICAL" /\
  exists tail,
    new_events Stubs.w0 w' =
      [EvConstruct "m1"]
      ++ [EvConfigureLogging "CRITICAL"; EvRun "stdio" "CRITICAL"; EvServing] ++ tail /\
    forallb (tool_event (agent_router w')) tail = true.
Proof.
  apply (start_returns_only_after_serving (Stubs.env Stubs.working ["hello"]) None Stubs.w0).
  reflexivity.
Defined.

(** Property X9. The start routine never reads what the module global
    held before: whenever the initialization yields a router, the start
    runs the same and ends in the same state whatever the global was, the
    earlier value being overwritten.  A second start therefore does not
    reuse the router of the first. *)
Theorem start_ignores_previous_handle (env : Env) (provided chosen : option Router)
    (h h' : option Router) (console : string) (events : list Event) :
  fst (initialize env provided (mkWorld h console events)) = Returned chosen ->
  run_mcp_server env provided (mkWorld h console events) =
  run_mcp_server env provided (mkWorld h' console events).
Proof.
  intros Hinit. rewrite !run_mcp_server_paths.
  rewrite initialize_paths in Hinit. rewrite !initialize_paths.
  destruct (truth provided); [reflexivity |].
  cbn [fst trace] in Hinit |- *. now rewrite Hinit.
Qed.

Lemma start_ignores_previous_handle_witness :
  run_mcp_server (Stubs.env Stubs.terse ["hello"]) None
    (mkWorld (Some Stubs.working) "INFO" (trace Stubs.w0)) =
  run_mcp_server (Stubs.env Stubs.terse ["hello"]) None
    (mkWorld None "INFO" (trace Stubs.w0)).
Proof.
  apply (start_ignores_previous_handle (Stubs.env Stubs.terse ["hello"]) None
           (Some Stubs.terse)).
  reflexivity.
Defined.
